(** * A shallow embedding of the bottom sheet of [src/sheet.tsx]

    JavaScript numbers are modelled as rationals [Q]: the snap-point
    arithmetic of the sheet is additions, subtractions, a product by a
    fraction, [Math.round] and [Math.abs].  The handlers of the component
    ([handleDrag], [handleDragEnd], the imperative [snapTo] and the effect
    that reports a snap index on open/close) are written as functions over
    an explicit environment; their side effects (spring animation requests,
    [onSnap] and [onClose] calls, the indicator rotation) are recorded in a
    log by a small writer monad that can also throw, as JavaScript does on a
    null dereference. *)

From Stdlib Require Import QArith Qround Qabs Qminmax ZArith List Bool Lia.
Import ListNotations.

Open Scope Q_scope.

(** ** JavaScript number helpers *)

Definition Qltb (x y : Q) : bool := negb (Qle_bool y x).

(** [Math.round]: the nearest integer, halves rounded towards +infinity. *)
Definition jsRound (x : Q) : Q := inject_Z (Qfloor (x + (1 # 2))).

(** [x / d > r] for a finite [r] and [d >= 0]: in JavaScript [x / 0] is
    [+Infinity] for [x > 0], [NaN] for [x = 0] and [-Infinity] for [x < 0],
    so the comparison holds exactly when [0 < x]. *)
Definition jsDivGt (x d r : Q) : bool :=
  if Qeq_bool d 0 then Qltb 0 x else Qltb r (x / d).

(** [Array.prototype.indexOf] with [===] on numbers; [-1] when absent. *)
Fixpoint indexOf_from (xs : list Q) (v : Q) (i : Z) : Z :=
  match xs with
  | [] => (-1)%Z
  | x :: rest => if Qeq_bool x v then i else indexOf_from rest v (i + 1)%Z
  end.

Definition indexOf (xs : list Q) (v : Q) : Z := indexOf_from xs v 0.

(** [xs[i]] for an integer [i]: [undefined] (here [None]) out of range. *)
Definition lookupZ (xs : list Q) (i : Z) : option Q :=
  if (i <? 0)%Z then None else nth_error xs (Z.to_nat i).

(** ** Effects and the handler monad *)

Inductive effect : Type :=
| Animate (target : Q)        (* animate(y, target, spring) *)
| OnSnap (index : Z)          (* onSnap(index) *)
| OnClose                     (* onClose() *)
| SetIndicator (deg : Z).     (* indicatorRotation.set(deg) *)

(** A computation returns a value with the effects it performed, or throws
    after having performed some effects. *)
Inductive res (A : Type) : Type :=
| Ret (a : A) (log : list effect)
| Exn (log : list effect).

Arguments Ret {A} a log.
Arguments Exn {A} log.

Definition ret {A} (a : A) : res A := Ret a [].

Definition throw {A} : res A := Exn [].

Definition bind {A B} (m : res A) (k : A -> res B) : res B :=
  match m with
  | Ret a l =>
      match k a with
      | Ret b l' => Ret b (l ++ l')
      | Exn l' => Exn (l ++ l')
      end
  | Exn l => Exn l
  end.

Definition emit (e : effect) : res unit := Ret tt [e].

Notation "'let*' x ':=' m 'in' k" := (bind m (fun x => k))
  (at level 200, x name, m at level 100, k at level 200).
Notation "m ;; k" := (bind m (fun _ : unit => k))
  (at level 100, right associativity).

(** ** Snap-point normalization (lines 46-51) *)

Definition normalizePoint (windowHeight point : Q) : Q :=
  if Qltb 0 point && Qle_bool point 1 then point * windowHeight
  else if Qltb point 0 then windowHeight + point else point.

Definition normalizeSnapPoints (windowHeight : Q) (snapPoints : option (list Q))
  : option (list Q) :=
  match snapPoints with
  | Some ps => Some (map (normalizePoint windowHeight) ps)
  | None => None
  end.

(** ** getClosest *)

(** Modelled from the spec: [getClosest] of [src/utils] (not under src/),
    "choose the candidate numerically closest to the live offset's current
    value (... first minimal candidate in sequence order)".  An empty
    candidate list has no closest element; it is modelled as an error. *)
Definition getClosest (nums : list Q) (goal : Q) : option Q :=
  match nums with
  | [] => None
  | n :: rest =>
      Some (fold_left
              (fun prev curr =>
                 if Qltb (Qabs (curr - goal)) (Qabs (prev - goal)) then curr else prev)
              rest n)
  end.

(** ** The handlers' environment *)

Record SheetEnv : Type := {
  snapPoints : option (list Q);  (* the normalized snap points of the render *)
  hasOnSnap : bool;              (* onSnap was given *)
  sheetEl : option Q;            (* sheetRef.current: null, or an element of that height *)
  yValue : Q                     (* y.get() *)
}.

(** [sheetEl.getBoundingClientRect().height]; a null ref throws. *)
Definition measure (env : SheetEnv) : res Q :=
  match sheetEl env with
  | Some h => ret h
  | None => throw
  end.

(** ** handleDragEnd (lines 70-100) *)

Definition resolveTarget (env : SheetEnv) (contentHeight : Q) : res Q :=
  match snapPoints env with
  | Some ps =>
      match getClosest (map (fun p => contentHeight - p) ps) (yValue env) with
      | Some c => ret c
      | None => throw
      end
  | None =>
      ret (if jsDivGt (yValue env) contentHeight (6 # 10) then contentHeight else 0)
  end.

(** [Math.abs(Math.round(snapPoints[0] - snapTo))] and its position in the
    snap points (lines 88-89); [hd 0] stands for [snapPoints[0]], which
    exists whenever a target was found. *)
Definition snapValue (ps : list Q) (target : Q) : Q :=
  Qabs (jsRound (hd 0 ps - target)).

Definition recoverIndex (ps : list Q) (target : Q) : Z :=
  indexOf ps (snapValue ps target).

(** The snap index reported after a release (lines 87-91). *)
Definition reportSnap (env : SheetEnv) (snapTo : Q) : res unit :=
  match snapPoints env with
  | Some ps =>
      if hasOnSnap env then
        emit (OnSnap (recoverIndex ps snapTo))
      else ret tt
  | None => ret tt
  end.

Definition handleDragEnd (env : SheetEnv) (velocityY : Q) : res unit :=
  (if Qltb 500 velocityY then emit OnClose
   else
     let* contentHeight := measure env in
     let* snapTo := resolveTarget env contentHeight in
     emit (Animate snapTo) ;;
     reportSnap env snapTo ;;
     (if Qle_bool contentHeight snapTo then emit OnClose else ret tt)) ;;
  emit (SetIndicator 0).

(** ** The imperative handle (lines 119-131) *)

Definition snapTo (env : SheetEnv) (snapIndex : Z) : res unit :=
  match snapPoints env with
  | Some ps =>
      match lookupZ ps snapIndex with
      | Some p =>
          let* contentHeight := measure env in
          let target := contentHeight - p in
          emit (Animate target) ;;
          (if hasOnSnap env then emit (OnSnap snapIndex) else ret tt) ;;
          (if Qle_bool contentHeight target then emit OnClose else ret tt)
      | None => ret tt
      end
  | None => ret tt
  end.

(** ** handleDrag (lines 60-68) *)

Record DragState : Type := {
  y : Q;                      (* the live offset *)
  yVelocity : Q;              (* y.getVelocity() at this tick *)
  indicatorRotation : Z
}.

Definition handleDrag (s : DragState) (deltaY : Q) : DragState :=
  let velocity := yVelocity s in
  let rot := indicatorRotation s in
  let rot := if Qltb 0 velocity then 10%Z else rot in
  let rot := if Qltb velocity 0 then (-10)%Z else rot in
  {| y := Qmax (y s + deltaY) 0; yVelocity := velocity; indicatorRotation := rot |}.

(** A gesture: at each tick the velocity the motion value reports and the
    pointer delta. *)
Definition dragTick (s : DragState) (tick : Q * Q) : DragState :=
  handleDrag {| y := y s; yVelocity := fst tick; indicatorRotation := indicatorRotation s |}
             (snd tick).

Fixpoint dragTrace (s : DragState) (ticks : list (Q * Q)) : list DragState :=
  match ticks with
  | [] => []
  | t :: rest => let s' := dragTick s t in s' :: dragTrace s' rest
  end.

(** ** The snap report on open/close (lines 108-117) *)

Record SheetProps : Type := {
  isOpen : bool;
  rawSnapPoints : option (list Q);
  onSnapGiven : bool;
  initialSnap : Z;
  windowHeight : Q
}.

(** What React keeps between renders: the [mounted] state and the [isOpen]
    dependency of the last run of the effect ([None] before the first). *)
Record LifeState : Type := {
  mounted : bool;
  lastIsOpen : option bool
}.

Definition snapEffect (mountedNow : bool) (p : SheetProps) : list effect :=
  match normalizeSnapPoints (windowHeight p) (rawSnapPoints p) with
  | None => []
  | Some ps =>
      if negb (onSnapGiven p) || negb mountedNow then []
      else
        let snapIndex := if isOpen p then initialSnap p
                         else (Z.of_nat (length ps) - 1)%Z in
        [OnSnap snapIndex]
  end.

(** One render: the effect runs when its dependency [isOpen] changed (or on
    the first render) and reads the [mounted] of this render; the mount effect
    then sets [mounted], seen by every later render. *)
Definition render (st : LifeState) (p : SheetProps) : LifeState * list effect :=
  let runs := match lastIsOpen st with
              | None => true
              | Some b => negb (Bool.eqb b (isOpen p))
              end in
  ({| mounted := true; lastIsOpen := Some (isOpen p) |},
   if runs then snapEffect (mounted st) p else []).

Definition initialLife : LifeState := {| mounted := false; lastIsOpen := None |}.

(** ** What a render returns (lines 44, 158-188) *)





Definition isOnClose (e : effect) : bool :=
  match e with OnClose => true | _ => false end.

Definition isOnSnap (e : effect) : bool :=
  match e with OnSnap _ => true | _ => false end.

(** * Properties *)

(** ** Helper lemmas *)

Lemma Qltb_true x y : Qltb x y = true <-> x < y.
Proof.
  unfold Qltb. rewrite negb_true_iff.
  split; intro H.
  - apply Qnot_le_lt. intro H'. apply Qle_bool_iff in H'. congruence.
  - destruct (Qle_bool y x) eqn:E; [|reflexivity].
    apply Qle_bool_iff in E. exfalso. apply (Qlt_not_le x y); assumption.
Qed.

Lemma Qltb_false x y : Qltb x y = false <-> y <= x.
Proof.
  unfold Qltb. rewrite negb_false_iff. apply Qle_bool_iff.
Qed.

Lemma bind_Ret {A B} (a : A) l (k : A -> res B) :
  bind (Ret a l) k = match k a with
                     | Ret b l' => Ret b (l ++ l')
                     | Exn l' => Exn (l ++ l')
                     end.
Proof. reflexivity. Qed.

(** ** The snap report on open/close *)

Lemma normalizeSnapPoints_length H raw :
  normalizeSnapPoints H (Some raw) = Some (map (normalizePoint H) raw).
Proof. reflexivity. Qed.

Lemma render_toggle st p raw :
  mounted st = true ->
  lastIsOpen st = Some (negb (isOpen p)) ->
  rawSnapPoints p = Some raw ->
  onSnapGiven p = true ->
  snd (render st p) =
    [OnSnap (if isOpen p then initialSnap p else (Z.of_nat (length raw) - 1)%Z)].
Proof.
  intros Hm Hl Hr Ho.
  unfold render, snapEffect. rewrite Hl, Hm, Hr, Ho. simpl.
  rewrite length_map.
  destruct (isOpen p); reflexivity.
Qed.

(** ** Claims *)

(** C3: normalization maps every raw snap value [v] of the configured
    sequence, position by position, to [v * H] when [0 < v <= 1], to
    [H + v] when [v < 0], and to [v] itself otherwise, with no clamping;
    so [0.5] gives [0.5 H], [-100] gives [H - 100] and [250] gives [250]. *)
Theorem normalizeSnapPoints_spec (H : Q) (raw : list Q) :
  (exists ps, normalizeSnapPoints H (Some raw) = Some ps /\
     length ps = length raw /\
     forall i v, nth_error raw i = Some v ->
       ((0 < v /\ v <= 1) -> nth_error ps i = Some (v * H)) /\
       (v < 0 -> nth_error ps i = Some (H + v)) /\
       (~ (0 < v /\ v <= 1) -> ~ v < 0 -> nth_error ps i = Some v)) /\
  normalizePoint H (1 # 2) = (1 # 2) * H /\
  normalizePoint H (-100) == H - 100 /\
  normalizePoint H 250 = 250.
Proof.
  split; [|split; [|split]].
  - exists (map (normalizePoint H) raw). split; [reflexivity|].
    split; [apply length_map|].
    intros i v Hi. rewrite nth_error_map, Hi. simpl.
    unfold normalizePoint.
    split; [|split].
    + intros [H0 H1].
      apply Qltb_true in H0. apply Qle_bool_iff in H1.
      rewrite H0, H1. reflexivity.
    + intro Hneg.
      assert (E : Qltb 0 v = false) by (apply Qltb_false, Qlt_le_weak; assumption).
      rewrite E. simpl. apply Qltb_true in Hneg. rewrite Hneg. reflexivity.
    + intros Hn Hneg.
      destruct (Qltb 0 v) eqn:E0, (Qle_bool v 1) eqn:E1; simpl;
        try (exfalso; apply Hn; split;
             [apply Qltb_true; assumption | apply Qle_bool_iff; assumption]);
        destruct (Qltb v 0) eqn:E2; try reflexivity;
        apply Qltb_true in E2; contradiction.
  - reflexivity.
  - unfold normalizePoint. simpl. ring.
  - reflexivity.
Qed.

(** C7: a drag update moves the live offset from [c] to [max (c + d) 0];
    along any sequence of drag ticks the offset is never negative after an
    update, and the clamp never holds back a move ([c + d] is a lower bound
    of the new offset, there is no upper bound). *)
Theorem handleDrag_clamp :
  (forall s d, y (handleDrag s d) = Qmax (y s + d) 0) /\
  (forall s ticks, Forall (fun s' => 0 <= y s') (dragTrace s ticks)) /\
  (forall s d, y s + d <= y (handleDrag s d)).
Proof.
  split; [|split].
  - reflexivity.
  - intros s ticks. revert s.
    induction ticks as [|t rest IH]; intro s; simpl.
    + constructor.
    + constructor; [|apply IH].
      unfold dragTick, handleDrag. simpl. apply Q.le_max_r.
  - intros s d. simpl. apply Q.le_max_l.
Qed.

(** C2: a release with vertical velocity above 500 calls [onClose] and
    does nothing else of the release (no measurement, no target, no
    animation, no [onSnap]), whatever the live offset and the snap points;
    only the indicator reset, done on every path, follows. *)
Theorem handleDragEnd_fast_dismiss (env : SheetEnv) (v : Q) :
  500 < v -> handleDragEnd env v = Ret tt [OnClose; SetIndicator 0].
Proof.
  intro Hv. unfold handleDragEnd.
  apply Qltb_true in Hv. rewrite Hv. reflexivity.
Qed.

Lemma handleDragEnd_fast_dismiss_witness :
  500 < 501 /\
  handleDragEnd {| snapPoints := Some [400; 200; 0]; hasOnSnap := true;
                   sheetEl := None; yValue := 0 |} 501
  = Ret tt [OnClose; SetIndicator 0].
Proof.
  split; [reflexivity|].
  apply handleDragEnd_fast_dismiss. reflexivity.
Defined.

(** C6: once mounted, with snap points and [onSnap] given, a change of
    [isOpen] reports [initialSnap] on opening and the last index on closing,
    whatever the drag state; e.g. with three snap points and
    [initialSnap = 1], opening reports 1 and closing reports 2. *)
Theorem render_snap_on_toggle :
  (forall st p raw,
     mounted st = true ->
     lastIsOpen st = Some (negb (isOpen p)) ->
     rawSnapPoints p = Some raw ->
     onSnapGiven p = true ->
     snd (render st p) =
       [OnSnap (if isOpen p then initialSnap p else (Z.of_nat (length raw) - 1)%Z)]) /\
  (let mk b := {| isOpen := b; rawSnapPoints := Some [1; 1 # 2; 0];
                  onSnapGiven := true; initialSnap := 1%Z; windowHeight := 800 |} in
   let (s1, e1) := render initialLife (mk false) in
   let (s2, e2) := render s1 (mk true) in
   let (_, e3) := render s2 (mk false) in
   e1 = [] /\ e2 = [OnSnap 1] /\ e3 = [OnSnap 2]).
Proof.
  split.
  - apply render_toggle.
  - repeat split.
Qed.

Lemma render_snap_on_toggle_witness :
  snd (render {| mounted := true; lastIsOpen := Some false |}
              {| isOpen := true; rawSnapPoints := Some [1; 0];
                 onSnapGiven := true; initialSnap := 0%Z; windowHeight := 600 |})
  = [OnSnap 0].
Proof.
  exact (proj1 render_snap_on_toggle
           {| mounted := true; lastIsOpen := Some false |}
           {| isOpen := true; rawSnapPoints := Some [1; 0];
              onSnapGiven := true; initialSnap := 0%Z; windowHeight := 600 |}
           [1; 0] eq_refl eq_refl eq_refl eq_refl).
Defined.

(** C10: the open report does not check [initialSnap] against the snap
    points: an out-of-range [initialSnap] is reported as it is. *)
Theorem render_open_initialSnap_unchecked (st : LifeState) (p : SheetProps) (raw : list Q) :
  mounted st = true ->
  lastIsOpen st = Some false ->
  isOpen p = true ->
  rawSnapPoints p = Some raw ->
  onSnapGiven p = true ->
  (initialSnap p < 0 \/ Z.of_nat (length raw) <= initialSnap p)%Z ->
  snd (render st p) = [OnSnap (initialSnap p)].
Proof.
  intros Hm Hl Ho Hr Hg _.
  rewrite (render_toggle st p raw Hm); [| rewrite Ho; exact Hl | exact Hr | exact Hg].
  rewrite Ho. reflexivity.
Qed.

Lemma render_open_initialSnap_unchecked_witness :
  snd (render {| mounted := true; lastIsOpen := Some false |}
              {| isOpen := true; rawSnapPoints := Some [1; 1 # 2; 0];
                 onSnapGiven := true; initialSnap := 5%Z; windowHeight := 800 |})
  = [OnSnap 5].
Proof.
  refine (render_open_initialSnap_unchecked
            {| mounted := true; lastIsOpen := Some false |}
            {| isOpen := true; rawSnapPoints := Some [1; 1 # 2; 0];
               onSnapGiven := true; initialSnap := 5%Z; windowHeight := 800 |}
            [1; 1 # 2; 0] eq_refl eq_refl eq_refl eq_refl eq_refl _).
  right. simpl. lia.
Defined.

(** ** The release resolver *)

Lemma jsDivGt_spec x d r :
  0 <= d -> (jsDivGt x d r = true <-> r * d < x).
Proof.
  intro Hd. unfold jsDivGt.
  destruct (Qeq_bool d 0) eqn:E.
  - apply Qeq_bool_eq in E. rewrite Qltb_true, E, Qmult_0_r. reflexivity.
  - apply Qeq_bool_neq in E.
    assert (Hpos : 0 < d).
    { apply Qle_lteq in Hd. destruct Hd as [Hd|Hd]; [exact Hd|].
      exfalso. apply E. symmetry. exact Hd. }
    rewrite Qltb_true. split; intro H.
    + apply Qnot_le_lt. intro H'.
      apply (Qlt_not_le _ _ H). apply Qle_shift_div_r; assumption.
    + apply Qlt_shift_div_l; assumption.
Qed.

Section Closest.
Variable goal : Q.

Let pick (prev curr : Q) : Q :=
  if Qltb (Qabs (curr - goal)) (Qabs (prev - goal)) then curr else prev.

Lemma fold_pick_closest (rest : list Q) (n : Q) :
  let r := fold_left pick rest n in
  (r = n \/ In r rest) /\
  Qabs (r - goal) <= Qabs (n - goal) /\
  (forall c, In c rest -> Qabs (r - goal) <= Qabs (c - goal)).
Proof.
  revert n. induction rest as [|x rest IH]; intro n; simpl.
  - split; [left; reflexivity|]. split; [apply Qle_refl|]. intros c [].
  - destruct (IH (pick n x)) as [Hin [Hle Hall]].
    assert (Hstep : Qabs (pick n x - goal) <= Qabs (n - goal) /\
                    Qabs (pick n x - goal) <= Qabs (x - goal)).
    { unfold pick. destruct (Qltb (Qabs (x - goal)) (Qabs (n - goal))) eqn:E.
      - apply Qltb_true in E. split; [apply Qlt_le_weak; exact E | apply Qle_refl].
      - apply Qltb_false in E. split; [apply Qle_refl | exact E]. }
    destruct Hstep as [Hn Hx].
    split; [|split].
    + destruct Hin as [Hin|Hin]; [|right; right; exact Hin].
      rewrite Hin. unfold pick.
      destruct (Qltb (Qabs (x - goal)) (Qabs (n - goal))).
      * right; left; reflexivity.
      * left; reflexivity.
    + eapply Qle_trans; [exact Hle | exact Hn].
    + intros c [Hc|Hc].
      * subst c. eapply Qle_trans; [exact Hle | exact Hx].
      * apply Hall. exact Hc.
Qed.

Lemma getClosest_closest (nums : list Q) (t : Q) :
  getClosest nums goal = Some t ->
  In t nums /\ forall c, In c nums -> Qabs (t - goal) <= Qabs (c - goal).
Proof.
  destruct nums as [|n rest]; simpl; intro H; [discriminate|].
  injection H as <-.
  destruct (fold_pick_closest rest n) as [Hin [Hle Hall]].
  split.
  - destruct Hin as [Hin|Hin]; [left; symmetry; exact Hin | right; exact Hin].
  - intros c [Hc|Hc]; [subst c; exact Hle | apply Hall; exact Hc].
Qed.

Lemma getClosest_some (nums : list Q) :
  nums <> [] -> exists t, getClosest nums goal = Some t.
Proof.
  destruct nums as [|n rest]; intro H; [contradiction|].
  eexists; reflexivity.
Qed.
End Closest.

Lemma reportSnap_ret env t : exists l, reportSnap env t = Ret tt l.
Proof.
  unfold reportSnap.
  destruct (snapPoints env); [destruct (hasOnSnap env)|]; eexists; reflexivity.
Qed.

(** The log of a release below the fast-dismiss threshold once the panel is
    measured and a target found. *)
Lemma release_log env v ch t lr :
  v <= 500 ->
  sheetEl env = Some ch ->
  resolveTarget env ch = Ret t [] ->
  reportSnap env t = Ret tt lr ->
  handleDragEnd env v =
    Ret tt (Animate t :: lr ++ (if Qle_bool ch t then [OnClose] else []) ++
            [SetIndicator 0]).
Proof.
  intros Hv Hel Hres Hrep.
  unfold handleDragEnd.
  assert (E : Qltb 500 v = false) by (apply Qltb_false; exact Hv).
  rewrite E. unfold measure. rewrite Hel. cbn [bind ret]. rewrite Hres.
  cbn [bind ret emit]. rewrite Hrep.
  destruct (Qle_bool ch t); simpl; rewrite ?app_nil_r, <- ?app_assoc; reflexivity.
Qed.

(** C1: a release at vertical velocity at most 500, with the panel measured
    at height [ch], animates to a target that is, with snap points, a
    candidate [ch - p] closest to the live offset (the [getClosest] policy),
    and without snap points [ch] when the offset exceeds 60% of [ch] and [0]
    otherwise; with points [400; 200; 0], height 400 and offset 250 the
    target is 200. *)
Theorem handleDragEnd_nearest_target :
  (forall env v ch,
     v <= 500 ->
     sheetEl env = Some ch ->
     0 <= ch ->
     snapPoints env <> Some [] ->
     exists t rest,
       handleDragEnd env v = Ret tt (Animate t :: rest) /\
       match snapPoints env with
       | Some ps =>
           let cands := map (fun p => ch - p) ps in
           In t cands /\
           forall c, In c cands -> Qabs (t - yValue env) <= Qabs (c - yValue env)
       | None =>
           ((6 # 10) * ch < yValue env -> t = ch) /\
           (yValue env <= (6 # 10) * ch -> t = 0)
       end) /\
  handleDragEnd {| snapPoints := Some [400; 200; 0]; hasOnSnap := true;
                   sheetEl := Some 400; yValue := 250 |} 0
  = Ret tt [Animate 200; OnSnap 1; SetIndicator 0].
Proof.
  split; [|reflexivity].
  intros env v ch Hv Hel Hch Hne.
  destruct (snapPoints env) as [ps|] eqn:Hsp.
  - assert (Hc : map (fun p => ch - p) ps <> []).
    { destruct ps; [contradiction|discriminate]. }
    destruct (getClosest_some (yValue env) _ Hc) as [t Ht].
    destruct (reportSnap_ret env t) as [lr Hlr].
    exists t. eexists. split.
    + apply (release_log env v ch t lr Hv Hel); [|exact Hlr].
      unfold resolveTarget. rewrite Hsp, Ht. reflexivity.
    + apply getClosest_closest. exact Ht.
  - set (t := if jsDivGt (yValue env) ch (6 # 10) then ch else 0).
    destruct (reportSnap_ret env t) as [lr Hlr].
    exists t. eexists. split.
    + apply (release_log env v ch t lr Hv Hel); [|exact Hlr].
      unfold resolveTarget. rewrite Hsp. reflexivity.
    + split; intro H; unfold t.
      * apply (jsDivGt_spec (yValue env) ch (6 # 10) Hch) in H. rewrite H. reflexivity.
      * destruct (jsDivGt (yValue env) ch (6 # 10)) eqn:E; [|reflexivity].
        apply (jsDivGt_spec (yValue env) ch (6 # 10) Hch) in E.
        exfalso. apply (Qlt_not_le _ _ E). exact H.
Qed.

Lemma handleDragEnd_nearest_target_witness :
  exists t rest,
    handleDragEnd {| snapPoints := None; hasOnSnap := false;
                     sheetEl := Some 300; yValue := 190 |} 0
    = Ret tt (Animate t :: rest) /\
    ((6 # 10) * 300 < 190 -> t = 300) /\ (190 <= (6 # 10) * 300 -> t = 0).
Proof.
  exact (proj1 handleDragEnd_nearest_target
           {| snapPoints := None; hasOnSnap := false;
              sheetEl := Some 300; yValue := 190 |} 0 300
           ltac:(discriminate) eq_refl ltac:(discriminate) ltac:(discriminate)).
Defined.

(** ** Index recovery *)

Lemma indexOf_from_found ps v i p k :
  nth_error ps i = Some p ->
  p == v ->
  (forall j q, (j < i)%nat -> nth_error ps j = Some q -> ~ q == v) ->
  indexOf_from ps v k = (k + Z.of_nat i)%Z.
Proof.
  revert i k. induction ps as [|x rest IH]; intros i k Hi Hp Hbefore.
  - destruct i; discriminate.
  - simpl. destruct i as [|i].
    + simpl in Hi. injection Hi as ->.
      assert (E : Qeq_bool p v = true) by (apply Qeq_bool_iff; exact Hp).
      rewrite E. lia.
    + destruct (Qeq_bool x v) eqn:E.
      * apply Qeq_bool_eq in E. exfalso.
        apply (Hbefore 0%nat x); [lia | reflexivity | exact E].
      * rewrite (IH i (k + 1)%Z Hi Hp); [lia|].
        intros j q Hj Hq. apply (Hbefore (S j) q); [lia | exact Hq].
Qed.

Lemma indexOf_from_absent ps v k :
  (forall q, In q ps -> ~ q == v) -> indexOf_from ps v k = (-1)%Z.
Proof.
  revert k. induction ps as [|x rest IH]; intros k Habs; simpl; [reflexivity|].
  destruct (Qeq_bool x v) eqn:E.
  - apply Qeq_bool_eq in E. exfalso. apply (Habs x); [left; reflexivity | exact E].
  - apply IH. intros q Hq. apply Habs. right. exact Hq.
Qed.

Lemma jsRound_int (x : Q) (n : Z) : x == inject_Z n -> jsRound x = inject_Z n.
Proof.
  intro H. unfold jsRound. f_equal.
  rewrite (Qfloor_comp (x + (1 # 2)) (inject_Z n + (1 # 2))).
  - simpl. rewrite Z.div_add_l by lia. simpl. apply Z.add_0_r.
  - rewrite H. reflexivity.
Qed.

(** C4 (amended): when the first snap point equals the content height,
    recovering the index of the candidate [ch - ps[i]] gives back [i] for
    every position [i] holding a non-negative whole number not held by an
    earlier position. *)
Theorem recoverIndex_roundtrip (ps : list Q) (ch p : Q) (i : nat) (k : Z) :
  hd 0 ps == ch ->
  nth_error ps i = Some p ->
  p == inject_Z k ->
  (0 <= k)%Z ->
  (forall j q, (j < i)%nat -> nth_error ps j = Some q -> ~ q == p) ->
  recoverIndex ps (ch - p) = Z.of_nat i.
Proof.
  intros Hfirst Hi Hp Hk Hbefore.
  unfold recoverIndex, indexOf, snapValue.
  rewrite (jsRound_int (hd 0 ps - (ch - p)) k).
  - apply (indexOf_from_found ps _ i p 0 Hi).
    + rewrite Hp. unfold Qabs, inject_Z. simpl. rewrite Z.abs_eq by exact Hk.
      reflexivity.
    + intros j q Hj Hq Heq. apply (Hbefore j q Hj Hq).
      rewrite Heq, Hp. unfold Qabs, inject_Z. simpl. rewrite Z.abs_eq by exact Hk.
      reflexivity.
  - rewrite Hfirst, <- Hp. ring.
Qed.

Lemma recoverIndex_roundtrip_witness :
  recoverIndex [400; 200; 0] (400 - 200) = Z.of_nat 1.
Proof.
  apply (recoverIndex_roundtrip [400; 200; 0] 400 200 1 200);
    [reflexivity | reflexivity | reflexivity | lia |].
  intros j q Hj Hq. destruct j as [|j]; [|lia].
  simpl in Hq. injection Hq as <-. vm_compute. discriminate.
Defined.

(** C4 counterexample: the first snap point equals the content height 400,
    yet the candidate of the snap point 200.5 (index 1) is recovered as -1:
    the snap value is rounded to 201 before the exact match. *)
Lemma recoverIndex_roundtrip_fractional :
  hd 0 [400; 401 # 2; 0] == 400 /\
  nth_error [400; 401 # 2; 0] 1 = Some (401 # 2) /\
  recoverIndex [400; 401 # 2; 0] (400 - (401 # 2)) = (-1)%Z /\
  recoverIndex [400; 401 # 2; 0] (400 - (401 # 2)) <> Z.of_nat 1.
Proof.
  split; [reflexivity|]. split; [reflexivity|].
  split; [reflexivity|]. vm_compute. discriminate.
Qed.

(** ** The imperative handle *)

Lemma lookupZ_in_range ps N :
  (0 <= N < Z.of_nat (length ps))%Z ->
  exists p, lookupZ ps N = Some p /\ nth_error ps (Z.to_nat N) = Some p.
Proof.
  intros [H0 H1]. unfold lookupZ.
  assert (E : (N <? 0)%Z = false) by (apply Z.ltb_ge; exact H0).
  rewrite E.
  destruct (nth_error ps (Z.to_nat N)) as [p|] eqn:Hn.
  - exists p. split; reflexivity.
  - apply nth_error_None in Hn. lia.
Qed.

Lemma lookupZ_out_of_range ps N :
  (N < 0 \/ Z.of_nat (length ps) <= N)%Z -> lookupZ ps N = None.
Proof.
  intro H. unfold lookupZ.
  destruct (N <? 0)%Z eqn:E; [reflexivity|].
  apply Z.ltb_ge in E. apply nth_error_None. lia.
Qed.

(** C5: [snapTo N] does nothing when there are no snap points or [N] is out
    of range; for an in-range [N], with the panel measured at [ch], it
    animates to [ch - ps[N]] (the release's candidate at position [N]),
    reports [N] itself to [onSnap] when given, and calls [onClose] exactly
    when the target is at least [ch]. *)
Theorem snapTo_spec :
  (forall env N,
     match snapPoints env with
     | None => True
     | Some ps => (N < 0 \/ Z.of_nat (length ps) <= N)%Z
     end ->
     snapTo env N = Ret tt []) /\
  (forall env N ps ch,
     snapPoints env = Some ps ->
     sheetEl env = Some ch ->
     (0 <= N < Z.of_nat (length ps))%Z ->
     exists p,
       nth_error ps (Z.to_nat N) = Some p /\
       nth_error (map (fun p => ch - p) ps) (Z.to_nat N) = Some (ch - p) /\
       snapTo env N =
         Ret tt (Animate (ch - p) ::
                 (if hasOnSnap env then [OnSnap N] else []) ++
                 (if Qle_bool ch (ch - p) then [OnClose] else []))).
Proof.
  split.
  - intros env N H. unfold snapTo.
    destruct (snapPoints env) as [ps|]; [|reflexivity].
    rewrite (lookupZ_out_of_range ps N H). reflexivity.
  - intros env N ps ch Hsp Hel HN.
    destruct (lookupZ_in_range ps N HN) as [p [Hl Hn]].
    exists p. split; [exact Hn|]. split.
    + rewrite nth_error_map, Hn. reflexivity.
    + unfold snapTo. rewrite Hsp, Hl. unfold measure. rewrite Hel.
      cbn [bind ret emit].
      destruct (hasOnSnap env), (Qle_bool ch (ch - p)); reflexivity.
Qed.

Lemma snapTo_spec_witness :
  snapTo {| snapPoints := Some [400; 200; 0]; hasOnSnap := true;
            sheetEl := Some 400; yValue := 0 |} 3%Z = Ret tt [] /\
  exists p,
    nth_error [400; 200; 0] (Z.to_nat 2%Z) = Some p /\
    nth_error (map (fun p => 400 - p) [400; 200; 0]) (Z.to_nat 2%Z) = Some (400 - p) /\
    snapTo {| snapPoints := Some [400; 200; 0]; hasOnSnap := true;
              sheetEl := Some 400; yValue := 0 |} 2%Z =
      Ret tt (Animate (400 - p) :: [OnSnap 2%Z] ++
              (if Qle_bool 400 (400 - p) then [OnClose] else [])).
Proof.
  split.
  - apply (proj1 snapTo_spec). simpl. right. lia.
  - exact (proj2 snapTo_spec
             {| snapPoints := Some [400; 200; 0]; hasOnSnap := true;
                sheetEl := Some 400; yValue := 0 |} 2%Z [400; 200; 0] 400
             eq_refl eq_refl ltac:(simpl; lia)).
Defined.

(** ** Releases whose snap value is not found *)

(** C8 (amended): when the exact-match lookup finds no snap point equal to
    the snap value, the release does not throw and [onSnap] is called with
    [-1], the not-found result of [indexOf]. *)
Theorem handleDragEnd_unmatched_index (env : SheetEnv) (v ch : Q) (ps : list Q) :
  v <= 500 ->
  sheetEl env = Some ch ->
  snapPoints env = Some ps ->
  ps <> [] ->
  hasOnSnap env = true ->
  exists t rest,
    handleDragEnd env v = Ret tt (Animate t :: OnSnap (recoverIndex ps t) :: rest) /\
    ((forall q, In q ps -> ~ q == snapValue ps t) -> recoverIndex ps t = (-1)%Z).
Proof.
  intros Hv Hel Hsp Hne Hon.
  assert (Hc : map (fun p => ch - p) ps <> []).
  { destruct ps; [contradiction|discriminate]. }
  destruct (getClosest_some (yValue env) _ Hc) as [t Ht].
  exists t. eexists. split.
  - apply (release_log env v ch t [OnSnap (recoverIndex ps t)] Hv Hel).
    + unfold resolveTarget. rewrite Hsp, Ht. reflexivity.
    + unfold reportSnap. rewrite Hsp, Hon. reflexivity.
  - intro Habs. apply indexOf_from_absent. exact Habs.
Qed.

Lemma handleDragEnd_unmatched_index_witness :
  exists t rest,
    handleDragEnd {| snapPoints := Some [300; 100; 0]; hasOnSnap := true;
                     sheetEl := Some 400; yValue := 0 |} 0
    = Ret tt (Animate t :: OnSnap (recoverIndex [300; 100; 0] t) :: rest) /\
    ((forall q, In q [300; 100; 0] -> ~ q == snapValue [300; 100; 0] t) ->
     recoverIndex [300; 100; 0] t = (-1)%Z).
Proof.
  exact (handleDragEnd_unmatched_index
           {| snapPoints := Some [300; 100; 0]; hasOnSnap := true;
              sheetEl := Some 400; yValue := 0 |} 0 400 [300; 100; 0]
           ltac:(discriminate) eq_refl eq_refl ltac:(discriminate) eq_refl).
Defined.

(** C8 counterexample: first snap point 300 below the content height 400,
    offset 0: the target is 100, its snap value 200 is in no position of
    the snap points, and [onSnap] is still called (with [-1]). *)
Lemma handleDragEnd_unmatched_fires_onSnap :
  (forall q, In q [300; 100; 0] -> ~ q == snapValue [300; 100; 0] 100) /\
  handleDragEnd {| snapPoints := Some [300; 100; 0]; hasOnSnap := true;
                   sheetEl := Some 400; yValue := 0 |} 0
  = Ret tt [Animate 100; OnSnap (-1); SetIndicator 0].
Proof.
  split; [|reflexivity].
  intros q Hq Heq. vm_compute in Heq.
  destruct Hq as [<-|[<-|[<-|[]]]]; vm_compute in Heq; discriminate.
Qed.

(** ** Releases and snapTo before the panel is laid out *)

(** C9 (amended): while [sheetRef.current] is null, a release below the
    fast-dismiss threshold and a [snapTo] with an in-range index throw on
    the dereference, before any animation request or callback (and the
    indicator is not reset); [snapTo] out of range or without snap points
    stays a no-op. *)
Theorem unmeasured_panel_throws :
  (forall env v, sheetEl env = None -> v <= 500 -> handleDragEnd env v = Exn []) /\
  (forall env N ps p,
     sheetEl env = None -> snapPoints env = Some ps -> lookupZ ps N = Some p ->
     snapTo env N = Exn []) /\
  (forall env N,
     match snapPoints env with
     | None => True
     | Some ps => lookupZ ps N = None
     end ->
     snapTo env N = Ret tt []).
Proof.
  split; [|split].
  - intros env v Hel Hv. unfold handleDragEnd.
    assert (E : Qltb 500 v = false) by (apply Qltb_false; exact Hv).
    rewrite E. unfold measure. rewrite Hel. reflexivity.
  - intros env N ps p Hel Hsp Hl. unfold snapTo.
    rewrite Hsp, Hl. unfold measure. rewrite Hel. reflexivity.
  - intros env N H. unfold snapTo.
    destruct (snapPoints env) as [ps|]; [rewrite H|]; reflexivity.
Qed.

Lemma unmeasured_panel_throws_witness :
  handleDragEnd {| snapPoints := None; hasOnSnap := false;
                   sheetEl := None; yValue := 250 |} 0 = Exn [] /\
  snapTo {| snapPoints := Some [400; 200; 0]; hasOnSnap := true;
            sheetEl := None; yValue := 0 |} 1%Z = Exn [].
Proof.
  split.
  - apply (proj1 unmeasured_panel_throws); [reflexivity | discriminate].
  - apply (proj1 (proj2 unmeasured_panel_throws) _ 1%Z [400; 200; 0] 200);
      reflexivity.
Defined.

(** C9 counterexample: with the panel not laid out, a slow release and an
    in-range [snapTo] both throw instead of being no-ops. *)
Lemma unmeasured_panel_not_noop :
  handleDragEnd {| snapPoints := Some [400; 200; 0]; hasOnSnap := true;
                   sheetEl := None; yValue := 250 |} 0 = Exn [] /\
  snapTo {| snapPoints := Some [400; 200; 0]; hasOnSnap := true;
            sheetEl := None; yValue := 250 |} 1%Z = Exn [] /\
  Exn [] <> (Ret tt [] : res unit).
Proof.
  split; [reflexivity|]. split; [reflexivity|]. discriminate.
Qed.

(** * Further properties of the sheet *)

(** ** Releases *)

Lemma resolveTarget_log env ch t l :
  resolveTarget env ch = Ret t l -> l = [].
Proof.
  unfold resolveTarget.
  destruct (snapPoints env) as [ps|].
  - destruct (getClosest (map (fun p => ch - p) ps) (yValue env));
      intro H; [injection H as _ <-; reflexivity | discriminate].
  - intro H. injection H as _ <-. reflexivity.
Qed.

Lemma reportSnap_cases env t l :
  reportSnap env t = Ret tt l ->
  l = [] \/ exists ps, snapPoints env = Some ps /\ hasOnSnap env = true /\
                       l = [OnSnap (recoverIndex ps t)].
Proof.
  unfold reportSnap.
  destruct (snapPoints env) as [ps|]; [destruct (hasOnSnap env) eqn:Ho|];
    intro H; injection H as <-; [right; exists ps; auto | left | left]; reflexivity.
Qed.

(** Every completed release below the fast-dismiss threshold has this
    shape. *)
Lemma slow_release_inv env v l :
  v <= 500 ->
  handleDragEnd env v = Ret tt l ->
  exists ch t lr,
    sheetEl env = Some ch /\
    resolveTarget env ch = Ret t [] /\
    reportSnap env t = Ret tt lr /\
    l = Animate t :: lr ++ (if Qle_bool ch t then [OnClose] else []) ++ [SetIndicator 0].
Proof.
  intros Hv H.
  destruct (sheetEl env) as [ch|] eqn:Hel.
  - destruct (resolveTarget env ch) as [t l0|l0] eqn:Hres.
    + pose proof (resolveTarget_log _ _ _ _ Hres) as ->.
      destruct (reportSnap_ret env t) as [lr Hlr].
      rewrite (release_log env v ch t lr Hv Hel Hres Hlr) in H.
      injection H as <-.
      exists ch, t, lr. auto.
    + unfold handleDragEnd in H.
      assert (E : Qltb 500 v = false) by (apply Qltb_false; exact Hv).
      rewrite E in H. unfold measure in H. rewrite Hel in H.
      cbn [bind ret] in H. rewrite Hres in H. discriminate.
  - unfold handleDragEnd in H.
    assert (E : Qltb 500 v = false) by (apply Qltb_false; exact Hv).
    rewrite E in H. unfold measure in H. rewrite Hel in H. discriminate.
Qed.

Lemma bind_emit_last {A} (m : res A) (e : effect) l :
  bind m (fun _ => emit e) = Ret tt l -> exists l', l = l' ++ [e].
Proof.
  destruct m as [a l0|l0]; simpl; intro H; [|discriminate].
  injection H as <-. exists l0. reflexivity.
Qed.

(** Every release that completes ends by resetting the indicator to 0,
    whatever the velocity, offset and configuration. *)
Theorem handleDragEnd_ends_with_indicator_reset (env : SheetEnv) (v : Q) (l : list effect) :
  handleDragEnd env v = Ret tt l -> exists l', l = l' ++ [SetIndicator 0].
Proof.
  unfold handleDragEnd. apply bind_emit_last.
Qed.

Lemma handleDragEnd_ends_with_indicator_reset_witness :
  exists l', [Animate 200; OnSnap 1; SetIndicator 0] = l' ++ [SetIndicator 0].
Proof.
  apply (handleDragEnd_ends_with_indicator_reset
           {| snapPoints := Some [400; 200; 0]; hasOnSnap := true;
              sheetEl := Some 400; yValue := 250 |} 0).
  reflexivity.
Defined.

(** A release calls [onClose] at most once and reports at most one snap
    index. *)
Theorem handleDragEnd_at_most_one_close (env : SheetEnv) (v : Q) (l : list effect) :
  handleDragEnd env v = Ret tt l ->
  (length (filter isOnClose l) <= 1)%nat /\ (length (filter isOnSnap l) <= 1)%nat.
Proof.
  intro H.
  destruct (Qlt_le_dec 500 v) as [Hv|Hv].
  - unfold handleDragEnd in H. apply Qltb_true in Hv. rewrite Hv in H.
    injection H as <-. simpl. lia.
  - destruct (slow_release_inv env v l Hv H) as [ch [t [lr [_ [_ [Hr ->]]]]]].
    destruct (reportSnap_cases env t lr Hr) as [->|[ps [_ [_ ->]]]];
      destruct (Qle_bool ch t); simpl; lia.
Qed.

Lemma handleDragEnd_at_most_one_close_witness :
  (length (filter isOnClose [Animate 400; OnSnap 2; OnClose; SetIndicator 0]) <= 1)%nat /\
  (length (filter isOnSnap [Animate 400; OnSnap 2; OnClose; SetIndicator 0]) <= 1)%nat.
Proof.
  apply (handleDragEnd_at_most_one_close
           {| snapPoints := Some [400; 200; 0]; hasOnSnap := true;
              sheetEl := Some 400; yValue := 390 |} 0).
  reflexivity.
Defined.

(** A release reports no snap index when there are no snap points or no
    [onSnap]. *)
Theorem handleDragEnd_no_report_without_snap (env : SheetEnv) (v : Q) (l : list effect) :
  (snapPoints env = None \/ hasOnSnap env = false) ->
  handleDragEnd env v = Ret tt l ->
  forall i, ~ In (OnSnap i) l.
Proof.
  intros Hcfg H i Hin.
  destruct (Qlt_le_dec 500 v) as [Hv|Hv].
  - unfold handleDragEnd in H. apply Qltb_true in Hv. rewrite Hv in H.
    injection H as <-. simpl in Hin. intuition discriminate.
  - destruct (slow_release_inv env v l Hv H) as [ch [t [lr [_ [_ [Hr ->]]]]]].
    destruct (reportSnap_cases env t lr Hr) as [->|[ps [Hsp [Ho ->]]]].
    + simpl in Hin. destruct Hin as [Hin|Hin]; [discriminate|].
      destruct (Qle_bool ch t); simpl in Hin; intuition discriminate.
    + exfalso. destruct Hcfg as [Hc|Hc]; congruence.
Qed.

Lemma handleDragEnd_no_report_without_snap_witness :
  handleDragEnd {| snapPoints := None; hasOnSnap := true;
                   sheetEl := Some 300; yValue := 150 |} 0
  = Ret tt [Animate 0; SetIndicator 0] /\
  ~ In (OnSnap 0) [Animate 0; SetIndicator 0].
Proof.
  split; [reflexivity|].
  apply (handleDragEnd_no_report_without_snap
           {| snapPoints := None; hasOnSnap := true;
              sheetEl := Some 300; yValue := 150 |} 0);
    [left; reflexivity | reflexivity].
Defined.

Lemma Qle_self_minus x p : x <= x - p <-> p <= 0.
Proof.
  rewrite (Qle_minus_iff x (x - p)), (Qle_minus_iff p 0).
  setoid_replace (x - p + - x) with (0 + - p) by ring. reflexivity.
Qed.

(** Without snap points and with a panel of positive height [ch], a slow
    release either closes ([ch], with [onClose]) when the offset is past 60%
    of [ch], or opens fully ([0], no [onClose]). *)
Theorem handleDragEnd_no_snap_points (env : SheetEnv) (v ch : Q) :
  v <= 500 ->
  snapPoints env = None ->
  sheetEl env = Some ch ->
  0 < ch ->
  ((6 # 10) * ch < yValue env ->
   handleDragEnd env v = Ret tt [Animate ch; OnClose; SetIndicator 0]) /\
  (yValue env <= (6 # 10) * ch ->
   handleDragEnd env v = Ret tt [Animate 0; SetIndicator 0]).
Proof.
  intros Hv Hsp Hel Hch.
  assert (Hrep : forall t, reportSnap env t = Ret tt []).
  { intro t. unfold reportSnap. rewrite Hsp. reflexivity. }
  assert (Hres : resolveTarget env ch =
                 Ret (if jsDivGt (yValue env) ch (6 # 10) then ch else 0) []).
  { unfold resolveTarget. rewrite Hsp. reflexivity. }
  pose proof (jsDivGt_spec (yValue env) ch (6 # 10) (Qlt_le_weak _ _ Hch)) as Hd.
  split; intro Hy.
  - assert (E : jsDivGt (yValue env) ch (6 # 10) = true) by (apply Hd; exact Hy).
    rewrite E in Hres.
    rewrite (release_log env v ch ch [] Hv Hel Hres (Hrep ch)).
    assert (C : Qle_bool ch ch = true) by (apply Qle_bool_iff, Qle_refl).
    rewrite C. reflexivity.
  - assert (E : jsDivGt (yValue env) ch (6 # 10) = false).
    { apply not_true_iff_false. intro E'.
      apply Hd in E'. apply (Qlt_not_le _ _ E'). exact Hy. }
    rewrite E in Hres.
    rewrite (release_log env v ch 0 [] Hv Hel Hres (Hrep 0)).
    assert (C : Qle_bool ch 0 = false).
    { apply not_true_iff_false. intro C. apply Qle_bool_iff in C.
      apply (Qlt_not_le _ _ Hch). exact C. }
    rewrite C. reflexivity.
Qed.

Lemma handleDragEnd_no_snap_points_witness :
  (handleDragEnd {| snapPoints := None; hasOnSnap := false;
                    sheetEl := Some 300; yValue := 190 |} 0
   = Ret tt [Animate 300; OnClose; SetIndicator 0]) /\
  (handleDragEnd {| snapPoints := None; hasOnSnap := false;
                    sheetEl := Some 300; yValue := 150 |} 0
   = Ret tt [Animate 0; SetIndicator 0]).
Proof.
  split.
  - apply (proj1 (handleDragEnd_no_snap_points
                    {| snapPoints := None; hasOnSnap := false;
                       sheetEl := Some 300; yValue := 190 |} 0 300
                    ltac:(vm_compute; discriminate) eq_refl eq_refl eq_refl)).
    reflexivity.
  - apply (proj2 (handleDragEnd_no_snap_points
                    {| snapPoints := None; hasOnSnap := false;
                       sheetEl := Some 300; yValue := 150 |} 0 300
                    ltac:(vm_compute; discriminate) eq_refl eq_refl eq_refl)).
    vm_compute. discriminate.
Defined.

(** With snap points, a slow release animates to [ch - p] for one of the
    snap points [p], and calls [onClose] exactly when that point is at most
    0, whatever the content height. *)
Theorem handleDragEnd_closes_iff_point_nonpositive (env : SheetEnv) (v ch : Q) (ps : list Q) :
  v <= 500 ->
  snapPoints env = Some ps ->
  sheetEl env = Some ch ->
  ps <> [] ->
  exists p rest,
    In p ps /\
    handleDragEnd env v = Ret tt (Animate (ch - p) :: rest) /\
    (In OnClose rest <-> p <= 0).
Proof.
  intros Hv Hsp Hel Hne.
  assert (Hc : map (fun p => ch - p) ps <> []).
  { destruct ps; [contradiction|discriminate]. }
  destruct (getClosest_some (yValue env) _ Hc) as [t Ht].
  destruct (getClosest_closest _ _ _ Ht) as [Hin _].
  apply in_map_iff in Hin. destruct Hin as [p [<- Hp]].
  destruct (reportSnap_ret env (ch - p)) as [lr Hlr].
  assert (Hres : resolveTarget env ch = Ret (ch - p) []).
  { unfold resolveTarget. rewrite Hsp, Ht. reflexivity. }
  exists p. eexists. split; [exact Hp|]. split.
  - exact (release_log env v ch (ch - p) lr Hv Hel Hres Hlr).
  - rewrite <- Qle_self_minus with (x := ch), <- Qle_bool_iff.
    destruct (reportSnap_cases env (ch - p) lr Hlr) as [->|[qs [_ [_ ->]]]];
      destruct (Qle_bool ch (ch - p)); simpl; intuition discriminate.
Qed.

Lemma handleDragEnd_closes_iff_point_nonpositive_witness :
  exists p rest,
    In p [400; 200; 0] /\
    handleDragEnd {| snapPoints := Some [400; 200; 0]; hasOnSnap := true;
                     sheetEl := Some 400; yValue := 390 |} 0
    = Ret tt (Animate (400 - p) :: rest) /\
    (In OnClose rest <-> p <= 0).
Proof.
  apply (handleDragEnd_closes_iff_point_nonpositive
           {| snapPoints := Some [400; 200; 0]; hasOnSnap := true;
              sheetEl := Some 400; yValue := 390 |} 0 400 [400; 200; 0]);
    [vm_compute; discriminate | reflexivity | reflexivity | discriminate].
Defined.

(** [snapTo N] with an in-range [N] calls [onClose] exactly when the snap
    point at [N] is at most 0, whatever the content height; it never touches
    the drag indicator. *)
Theorem snapTo_closes_iff_point_nonpositive (env : SheetEnv) (N : Z) (ps : list Q) (p ch : Q) :
  snapPoints env = Some ps ->
  sheetEl env = Some ch ->
  lookupZ ps N = Some p ->
  exists rest,
    snapTo env N = Ret tt (Animate (ch - p) :: rest) /\
    (In OnClose rest <-> p <= 0) /\
    (forall d, ~ In (SetIndicator d) rest).
Proof.
  intros Hsp Hel Hl.
  unfold snapTo. rewrite Hsp, Hl. unfold measure. rewrite Hel.
  cbn [bind ret emit].
  pose proof (Qle_self_minus ch p) as Hm. rewrite <- Qle_bool_iff in Hm.
  destruct (hasOnSnap env), (Qle_bool ch (ch - p)); eexists;
    (split; [reflexivity|]); rewrite <- Hm; simpl; split; intuition discriminate.
Qed.

Lemma snapTo_closes_iff_point_nonpositive_witness :
  exists rest,
    snapTo {| snapPoints := Some [400; 200; 0]; hasOnSnap := true;
              sheetEl := Some 400; yValue := 0 |} 2%Z = Ret tt (Animate (400 - 0) :: rest) /\
    (In OnClose rest <-> 0 <= 0) /\
    (forall d, ~ In (SetIndicator d) rest).
Proof.
  apply (snapTo_closes_iff_point_nonpositive
           {| snapPoints := Some [400; 200; 0]; hasOnSnap := true;
              sheetEl := Some 400; yValue := 0 |} 2%Z [400; 200; 0] 0 400);
    reflexivity.
Defined.

Lemma recoverIndex_at (ps : list Q) (ch p : Q) (i : nat) (k : Z) :
  hd 0 ps == ch ->
  nth_error ps i = Some p ->
  p == inject_Z k ->
  (0 <= k)%Z ->
  (forall j q, (j < i)%nat -> nth_error ps j = Some q -> ~ q == p) ->
  indexOf ps (snapValue ps (ch - p)) = Z.of_nat i.
Proof.
  intros Hfirst Hi Hp Hk Hbefore.
  assert (Habs : Qabs (inject_Z k) == p).
  { rewrite Hp. unfold Qabs, inject_Z. simpl. rewrite Z.abs_eq by exact Hk.
    reflexivity. }
  unfold indexOf, snapValue.
  rewrite (jsRound_int (hd 0 ps - (ch - p)) k) by (rewrite Hfirst, <- Hp; ring).
  apply (indexOf_from_found ps _ i p 0 Hi); [symmetry; exact Habs|].
  intros j q Hj Hq Heq. apply (Hbefore j q Hj Hq). rewrite Heq. exact Habs.
Qed.

(** When the first snap point equals the content height and the snap points
    are distinct non-negative whole numbers, a slow release reports to
    [onSnap] the position of the snap point whose candidate it animates
    to. *)
Theorem handleDragEnd_reports_chosen_index (env : SheetEnv) (v ch : Q) (ps : list Q) :
  v <= 500 ->
  snapPoints env = Some ps ->
  sheetEl env = Some ch ->
  hasOnSnap env = true ->
  ps <> [] ->
  hd 0 ps == ch ->
  (forall p, In p ps -> exists k, (0 <= k)%Z /\ p == inject_Z k) ->
  (forall j k q r, nth_error ps j = Some q -> nth_error ps k = Some r -> q == r -> j = k) ->
  exists i p rest,
    nth_error ps i = Some p /\
    handleDragEnd env v = Ret tt (Animate (ch - p) :: OnSnap (Z.of_nat i) :: rest).
Proof.
  intros Hv Hsp Hel Hon Hne Hfirst Hint Hdist.
  assert (Hc : map (fun p => ch - p) ps <> []).
  { destruct ps; [contradiction|discriminate]. }
  destruct (getClosest_some (yValue env) _ Hc) as [t Ht].
  destruct (getClosest_closest _ _ _ Ht) as [Hin _].
  apply In_nth_error in Hin. destruct Hin as [i Hi].
  rewrite nth_error_map in Hi.
  destruct (nth_error ps i) as [p|] eqn:Hpi; [|discriminate].
  injection Hi as <-.
  destruct (Hint p (nth_error_In ps i Hpi)) as [k [Hk Hpk]].
  assert (Hidx : recoverIndex ps (ch - p) = Z.of_nat i).
  { apply (recoverIndex_at ps ch p i k Hfirst Hpi Hpk Hk).
    intros j q Hj Hq Heq. pose proof (Hdist j i q p Hq Hpi Heq). lia. }
  exists i, p. eexists. split; [exact Hpi|].
  rewrite <- Hidx.
  apply (release_log env v ch (ch - p) [OnSnap (recoverIndex ps (ch - p))] Hv Hel).
  - unfold resolveTarget. rewrite Hsp, Ht. reflexivity.
  - unfold reportSnap. rewrite Hsp, Hon. reflexivity.
Qed.

Lemma handleDragEnd_reports_chosen_index_witness :
  exists i p rest,
    nth_error [400; 200; 0] i = Some p /\
    handleDragEnd {| snapPoints := Some [400; 200; 0]; hasOnSnap := true;
                     sheetEl := Some 400; yValue := 250 |} 0
    = Ret tt (Animate (400 - p) :: OnSnap (Z.of_nat i) :: rest).
Proof.
  apply (handleDragEnd_reports_chosen_index
           {| snapPoints := Some [400; 200; 0]; hasOnSnap := true;
              sheetEl := Some 400; yValue := 250 |} 0 400 [400; 200; 0]);
    [vm_compute; discriminate | reflexivity | reflexivity | reflexivity
    | discriminate | reflexivity | |].
  - intros p [<-|[<-|[<-|[]]]];
      [exists 400%Z | exists 200%Z | exists 0%Z]; split; (lia || reflexivity).
  - intros j k q r Hj Hk Hqr.
    assert (Hj3 : (j < 3)%nat) by (change 3%nat with (length [400; 200; 0 : Q]); apply nth_error_Some; rewrite Hj; discriminate).
    assert (Hk3 : (k < 3)%nat) by (change 3%nat with (length [400; 200; 0 : Q]); apply nth_error_Some; rewrite Hk; discriminate).
    destruct j as [|[|[|j]]], k as [|[|[|k]]]; try lia;
      first [ reflexivity
            | simpl in Hj, Hk; injection Hj as <-; injection Hk as <-;
              vm_compute in Hqr; discriminate ].
Defined.

(** ** The drag indicator *)

(** Along any gesture the indicator rotation is 10 after a tick with
    positive velocity and -10 after one with negative velocity; starting from
    one of -10, 0, 10 it never takes another value. *)
Theorem dragTrace_indicator (s : DragState) (ticks : list (Q * Q)) :
  In (indicatorRotation s) [(-10)%Z; 0%Z; 10%Z] ->
  Forall2 (fun tk s' => (0 < fst tk -> indicatorRotation s' = 10%Z) /\
                        (fst tk < 0 -> indicatorRotation s' = (-10)%Z))
          ticks (dragTrace s ticks) /\
  Forall (fun s' => In (indicatorRotation s') [(-10)%Z; 0%Z; 10%Z]) (dragTrace s ticks).
Proof.
  revert s. induction ticks as [|[vel d] rest IH]; intros s Hs; simpl.
  - split; constructor.
  - set (s' := dragTick s (vel, d)).
    assert (Hrot : (0 < vel -> indicatorRotation s' = 10%Z) /\
                   (vel < 0 -> indicatorRotation s' = (-10)%Z) /\
                   In (indicatorRotation s') [(-10)%Z; 0%Z; 10%Z]).
    { unfold s', dragTick, handleDrag. simpl.
      destruct (Qltb 0 vel) eqn:E1, (Qltb vel 0) eqn:E2.
      - apply Qltb_true in E1, E2. exfalso. apply (Qlt_irrefl vel).
        apply (Qlt_trans _ 0); assumption.
      - split; [reflexivity|]. split; [|simpl; auto].
        intro H. apply Qltb_false in E2. exfalso. apply (Qlt_not_le _ _ H E2).
      - split; [|split; [reflexivity | simpl; auto]].
        intro H. apply Qltb_false in E1. exfalso. apply (Qlt_not_le _ _ H E1).
      - apply Qltb_false in E1, E2.
        split; [intro H; exfalso; apply (Qlt_not_le _ _ H E1)|].
        split; [intro H; exfalso; apply (Qlt_not_le _ _ H E2)|exact Hs]. }
    destruct Hrot as [Hp [Hn Hin]].
    destruct (IH s' Hin) as [H2 H1].
    split; constructor; auto.
Qed.

Lemma dragTrace_indicator_witness :
  Forall2 (fun tk s' => (0 < fst tk -> indicatorRotation s' = 10%Z) /\
                        (fst tk < 0 -> indicatorRotation s' = (-10)%Z))
          [(5, 3); (-2, -1)]
          (dragTrace {| y := 0; yVelocity := 0; indicatorRotation := 0 |}
                     [(5, 3); (-2, -1)]) /\
  Forall (fun s' => In (indicatorRotation s') [(-10)%Z; 0%Z; 10%Z])
         (dragTrace {| y := 0; yVelocity := 0; indicatorRotation := 0 |}
                    [(5, 3); (-2, -1)]).
Proof.
  apply dragTrace_indicator. simpl. auto.
Defined.

(** ** Renders *)





(** Closing a mounted sheet whose snap-point array is empty reports index
    [-1] ([snapPoints.length - 1]). *)
Theorem render_close_empty_snap_points (st : LifeState) (p : SheetProps) :
  mounted st = true ->
  lastIsOpen st = Some true ->
  isOpen p = false ->
  rawSnapPoints p = Some [] ->
  onSnapGiven p = true ->
  snd (render st p) = [OnSnap (-1)].
Proof.
  intros Hm Hl Ho Hr Hg.
  unfold render, snapEffect. rewrite Hl, Hm, Ho, Hr, Hg. reflexivity.
Qed.

Lemma render_close_empty_snap_points_witness :
  snd (render {| mounted := true; lastIsOpen := Some true |}
              {| isOpen := false; rawSnapPoints := Some [];
                 onSnapGiven := true; initialSnap := 0%Z; windowHeight := 700 |})
  = [OnSnap (-1)].
Proof.
  exact (render_close_empty_snap_points
           {| mounted := true; lastIsOpen := Some true |}
           {| isOpen := false; rawSnapPoints := Some [];
              onSnapGiven := true; initialSnap := 0%Z; windowHeight := 700 |}
           eq_refl eq_refl eq_refl eq_refl eq_refl).
Defined.

